(** * slatify: the Slack notification formatter and sender of [src/slack.ts]

    A shallow embedding of the two classes of [slack.ts], [Block] and
    [Slack], and the properties of the payload they build.

    - JavaScript strings are [string]; a value that may be [undefined] is an
      [option].
    - The ambient world (the GitHub event context, [process.env], the GitHub
      REST API and the Slack webhook) is an explicit record [World].
    - [async] functions run in the monad [Async]: a computation yields the
      ordered list of network calls it performed and either a thrown error
      or a value. *)

From Stdlib Require Import String Ascii List Bool Arith NArith Lia.
From Stdlib Require Import DecimalString.
Import ListNotations.

Local Open Scope list_scope.
Local Open Scope string_scope.

(** ** JavaScript string primitives used by the source *)

Module Js.

(** The line feed written ['\n'] in the source. *)
Definition LF : ascii := Ascii.ascii_of_nat 10.
Definition nl : string := String LF EmptyString.

(** [`${v}`] for a string that may be [undefined]. *)
Definition show (v : option string) : string :=
  match v with
  | Some s => s
  | None => "undefined"
  end.

(** [`${n}`] for a number that may be [undefined].  The number is a pull
    request or issue number, a natural number that JavaScript prints in
    plain decimal; this rendering agrees with it below [10^21], where
    JavaScript switches to exponent notation. *)
Definition show_number (v : option N) : string :=
  match v with
  | Some n => NilEmpty.string_of_uint (N.to_uint n)
  | None => "undefined"
  end.

(** Truthiness of a string that may be [undefined]: [undefined] and [''] are
    falsy. *)
Definition truthy (v : option string) : bool :=
  match v with
  | Some s => negb (s =? "")
  | None => false
  end.

Fixpoint drop (n : nat) (s : string) : string :=
  match n, s with
  | O, _ => s
  | S _, EmptyString => EmptyString
  | S k, String _ t => drop k t
  end.

(** [s.replace(pat, rep)] for a pattern without metacharacters and without
    the [g] flag: the leftmost occurrence of [pat] is replaced, the rest of
    [s] is kept. *)
Fixpoint replace (pat rep s : string) : string :=
  if String.prefix pat s then rep ++ drop (String.length pat) s
  else match s with
       | EmptyString => EmptyString
       | String c t => String c (replace pat rep t)
       end.

(** [s.split(sep)] for a one-character separator, as the pair of the first
    piece and the remaining pieces: [split] never returns an empty array. *)
Fixpoint split (sep : ascii) (s : string) : string * list string :=
  match s with
  | EmptyString => (EmptyString, [])
  | String c t =>
      let '(h, r) := split sep t in
      if Ascii.eqb c sep then (EmptyString, h :: r) else (String c h, r)
  end.

(** [s.includes(sub)] as a proposition. *)
Definition includes (s sub : string) : Prop :=
  exists pre post, s = pre ++ sub ++ post.

End Js.

(** ** Data model *)

(** [interface Accessory]. *)
Record Accessory := mkAccessory {
  color : string;
  result : string
}.

(** [MrkdwnElement] of [@slack/types]. *)
Record MrkdwnElement := mkMrkdwn {
  type : string;
  text : string
}.

(** The fields of [github.context] the source reads.  [issue_number] is
    [context.issue.number], which is [undefined] when the event carries no
    issue or pull request. *)
Record Context := mkContext {
  sha : string;
  eventName : string;
  workflow : string;
  ref : string;
  actor : string;
  owner : string;
  repo : string;
  issue_number : option N
}.

(** The part of the [repos.getCommit] response the source reads;
    [commit.author] is [null] when the committer has no GitHub account. *)
Record CommitAuthor := mkAuthor {
  login : string;
  author_html_url : string
}.

Record CommitData := mkCommit {
  message : string;
  html_url : string;
  author : option CommitAuthor
}.

(** [baseBlock]: an object literal [{type: 'section'}] to which either a
    [text] or a [fields] key is added. *)
Record SectionBlock := mkBlock {
  block_type : string;
  block_text : option MrkdwnElement;
  block_fields : option (list MrkdwnElement)
}.

(** [MessageAttachment]; [color] is read off a value that need not be an
    [Accessory], hence may be [undefined]. *)
Record MessageAttachment := mkAttachment {
  att_color : option string;
  blocks : list SectionBlock
}.

(** [IncomingWebhookSendArguments]. *)
Record Payload := mkPayload {
  payload_text : string;
  attachments : list MessageAttachment;
  unfurl_links : bool
}.

(** [IncomingWebhookDefaultArguments]: the defaults handed to the webhook
    client; the source passes them through unread. *)
Record IncomingWebhookDefaultArguments := mkDefaults {
  username : option string;
  icon_emoji : option string;
  icon_url : option string;
  channel : option string
}.

(** [IncomingWebhookResult]. *)
Record IncomingWebhookResult := mkResult {
  response_text : string
}.

(** ** Effects *)

(** Errors a call can throw. *)
Inductive JsError :=
| TypeError                    (* a property read on [undefined] *)
| UpstreamError (e : string)   (* thrown by a client library *)
| Error (msg : string).        (* [new Error(msg)] *)

(** The outbound network calls. *)
Inductive NetCall :=
| GetCommit (auth owner repo ref : string)
| WebhookSend (url : string) (options : IncomingWebhookDefaultArguments)
    (p : Payload).

(** The world outside the program. *)
Record World := mkWorld {
  context : Context;
  GITHUB_HEAD_REF : option string;
  repos_getCommit : string -> string -> string -> string -> JsError + CommitData;
  webhook_send :
    string -> IncomingWebhookDefaultArguments -> Payload ->
    JsError + IncomingWebhookResult
}.

(** An [async] computation: the network calls made, in order, and the
    outcome. *)
Definition Async (A : Type) : Type := list NetCall * (JsError + A).

Definition ret {A} (a : A) : Async A := ([], inr a).

Definition throw {A} (e : JsError) : Async A := ([], inl e).

Definition bind {A B} (m : Async A) (k : A -> Async B) : Async B :=
  match m with
  | (tr, inl e) => (tr, inl e)
  | (tr, inr a) => let '(tr', r) := k a in ((tr ++ tr')%list, r)
  end.

(** A network call: logged, then answered by the world. *)
Definition request {A} (c : NetCall) (answer : JsError + A) : Async A :=
  ([c], answer).

Declare Scope async_scope.
Delimit Scope async_scope with async.
Notation "x <- m ;; k" := (bind m (fun x => k))
  (at level 61, m at next level, right associativity) : async_scope.

Definition calls {A} (m : Async A) : list NetCall := fst m.
Definition outcome {A} (m : Async A) : JsError + A := snd m.

Local Open Scope async_scope.

(** ** [class Block] *)

Module Block.

Definition success : Accessory := mkAccessory "#2cbe4e" "Succeeded".

Definition failure : Accessory := mkAccessory "#cb2431" "Failed".

Definition cancelled : Accessory := mkAccessory "#ffc107" "Cancelled".

Definition isPullRequest (w : World) : bool :=
  eventName (context w) =? "pull_request".

Definition repoUrl (c : Context) : string :=
  "https://github.com/" ++ owner c ++ "/" ++ repo c.

Definition baseFields (w : World) : list MrkdwnElement :=
  let c := context w in
  let number := Js.show_number (issue_number c) in
  let repoUrl := repoUrl c in
  let eventUrl :=
    if isPullRequest w
    then "<" ++ repoUrl ++ "/pull/" ++ number ++ "|" ++ eventName c ++ ">"
    else eventName c in
  let actionUrl :=
    if isPullRequest w
    then repoUrl ++ "/pull/" ++ number ++ "/checks"
    else repoUrl ++ "/commit/" ++ sha c ++ "/checks" in
  [ mkMrkdwn "mrkdwn"
      ("*repository*" ++ Js.nl ++ "<" ++ repoUrl ++ "|" ++ owner c ++ "/"
         ++ repo c ++ ">");
    mkMrkdwn "mrkdwn" ("*ref*" ++ Js.nl ++ ref c);
    mkMrkdwn "mrkdwn" ("*event name*" ++ Js.nl ++ eventUrl);
    mkMrkdwn "mrkdwn"
      ("*workflow*" ++ Js.nl ++ "<" ++ actionUrl ++ "|" ++ workflow c ++ ">")
  ].

(** The [ref] argument of [repos.getCommit]; reading [replace] off an
    unset [GITHUB_HEAD_REF] throws. *)
Definition commitRef (w : World) : Async string :=
  if isPullRequest w then
    match GITHUB_HEAD_REF w with
    | Some head_ref => ret (Js.replace "refs/heads/" "" head_ref)
    | None => throw TypeError
    end
  else ret (sha (context w)).

Definition commitField (commit : CommitData) : MrkdwnElement :=
  let commitMsg := fst (Js.split Js.LF (message commit)) in
  let commitUrl := html_url commit in
  mkMrkdwn "mrkdwn" ("*commit*" ++ Js.nl ++ "<" ++ commitUrl ++ "|" ++ commitMsg ++ ">").

Definition authorField (a : CommitAuthor) : MrkdwnElement :=
  let authorName := login a in
  let authorUrl := author_html_url a in
  mkMrkdwn "mrkdwn" ("*author*" ++ Js.nl ++ "<" ++ authorUrl ++ "|" ++ authorName ++ ">").

Definition commitFieldsOf (commit : CommitData) : list MrkdwnElement :=
  match author commit with
  | Some a => [commitField commit; authorField a]
  | None => [commitField commit]
  end.

Definition getCommitFields (w : World) (token : string)
  : Async (list MrkdwnElement) :=
  let c := context w in
  ref <- commitRef w ;;
  commit <- request (GetCommit token (owner c) (repo c) ref)
                    (repos_getCommit w token (owner c) (repo c) ref) ;;
  ret (commitFieldsOf commit).

Definition getCompactModeTextField (w : World) (result : option string)
  : Async MrkdwnElement :=
  let c := context w in
  let repoUrl := repoUrl c in
  let actionUrl := repoUrl ++ "/commit/" ++ sha c ++ "/checks" in
  ret (mkMrkdwn "mrkdwn"
         ("[<" ++ repoUrl ++ "|" ++ owner c ++ "/" ++ repo c ++ ">] "
            ++ Js.show result ++ " by " ++ actor c ++ " on " ++ ref c
            ++ ", check <" ++ actionUrl ++ "|" ++ workflow c ++ ">")).

Definition getReleaseModeTextField (created_tag : string)
  : Async MrkdwnElement :=
  ret (mkMrkdwn "mrkdwn"
         ("https://github.com/weseek/growi/releases/tag/" ++ created_tag)).

(** What [slackBlockUI[key]] can evaluate to. *)
Inductive Member :=
| MAccessory (a : Accessory)
| MContext (c : Context)
| MBoolean (b : bool)
| MFields (l : list MrkdwnElement)
| MFunction (name : string)
| MPrototype.

(** The properties of a [Block] instance along its prototype chain: the
    own field [context], then the accessors and methods of
    [Block.prototype], then what [Object.prototype] provides. *)
Definition members (w : World) : list (string * Member) :=
  [ ("context", MContext (context w));
    ("constructor", MFunction "Block");
    ("success", MAccessory success);
    ("failure", MAccessory failure);
    ("cancelled", MAccessory cancelled);
    ("isPullRequest", MBoolean (isPullRequest w));
    ("baseFields", MFields (baseFields w));
    ("getCommitFields", MFunction "getCommitFields");
    ("getCompactModeTextField", MFunction "getCompactModeTextField");
    ("getReleaseModeTextField", MFunction "getReleaseModeTextField");
    ("__defineGetter__", MFunction "__defineGetter__");
    ("__defineSetter__", MFunction "__defineSetter__");
    ("hasOwnProperty", MFunction "hasOwnProperty");
    ("__lookupGetter__", MFunction "__lookupGetter__");
    ("__lookupSetter__", MFunction "__lookupSetter__");
    ("isPrototypeOf", MFunction "isPrototypeOf");
    ("propertyIsEnumerable", MFunction "propertyIsEnumerable");
    ("toString", MFunction "toString");
    ("valueOf", MFunction "valueOf");
    ("__proto__", MPrototype);
    ("toLocaleString", MFunction "toLocaleString") ].

Fixpoint lookup (key : string) (l : list (string * Member)) : option Member :=
  match l with
  | [] => None
  | (k, m) :: t => if key =? k then Some m else lookup key t
  end.

(** [slackBlockUI[key]]; [None] is [undefined]. *)
Definition get (w : World) (key : string) : option Member :=
  lookup key (members w).

(** [m.result] and [m.color]: only an [Accessory] has them. *)
Definition get_result (m : Member) : option string :=
  match m with
  | MAccessory a => Some (result a)
  | _ => None
  end.

Definition get_color (m : Member) : option string :=
  match m with
  | MAccessory a => Some (color a)
  | _ => None
  end.

End Block.

(** ** [class Slack] *)

Module Slack.

Definition isMention (condition status : string) : bool :=
  (condition =? "always") || (condition =? status).

Definition section_text (f : MrkdwnElement) : SectionBlock :=
  mkBlock "section" (Some f) None.

Definition section_fields (l : list MrkdwnElement) : SectionBlock :=
  mkBlock "section" None (Some l).

Definition generatePayload (w : World)
    (jobName status mention mentionCondition : string)
    (commitFlag isCompactMode isReleaseMode : bool)
    (created_tag : string) (token : option string) : Async Payload :=
  match Block.get w status with
  | None => throw TypeError
  | Some notificationType =>
      let result := Block.get_result notificationType in
      let tmpText := jobName ++ " " ++ Js.show result in
      let text :=
        if negb (mention =? "") && isMention mentionCondition status
        then "<!" ++ mention ++ "> " ++ tmpText
        else tmpText in
      baseBlock <-
        (if isCompactMode then
           compactModeFields <- Block.getCompactModeTextField w result ;;
           ret (section_text compactModeFields)
         else if isReleaseMode then
           releaseModeFields <- Block.getReleaseModeTextField created_tag ;;
           ret (section_text releaseModeFields)
         else
           let fields := Block.baseFields w in
           match token with
           | Some tok =>
               if commitFlag && negb (tok =? "") then
                 commitFields <- Block.getCommitFields w tok ;;
                 ret (section_fields (fields ++ commitFields)%list)
               else ret (section_fields fields)
           | None => ret (section_fields fields)
           end) ;;
      let attachments :=
        mkAttachment (Block.get_color notificationType) [baseBlock] in
      ret (mkPayload text [attachments] true)
  end.

Definition failureMessage (response_text : string) : string :=
  Js.nl ++ "      Failed to send notification to Slack" ++ Js.nl
    ++ "      Response: " ++ response_text ++ Js.nl ++ "      ".

Definition notify (w : World) (url : string)
    (options : IncomingWebhookDefaultArguments) (payload : Payload)
  : Async unit :=
  response <- request (WebhookSend url options payload)
                      (webhook_send w url options payload) ;;
  if negb (response_text response =? "ok")
  then throw (Error (failureMessage (response_text response)))
  else ret tt.

End Slack.

(** ** Scenarios: concrete worlds the examples below run in *)

Module Scenario.

Definition push : Context :=
  mkContext "4f2c9a1" "push" "CI" "refs/heads/master" "octocat"
            "weseek" "slatify" None.

Definition pull_request : Context :=
  mkContext "4f2c9a1" "pull_request" "CI" "refs/pull/7/merge" "octocat"
            "weseek" "slatify" (Some 7%N).

Definition commit_with_author : CommitData :=
  mkCommit ("Fix typo" ++ Js.nl ++ Js.nl ++ "Longer description")
           "https://github.com/weseek/slatify/commit/4f2c9a1"
           (Some (mkAuthor "octocat" "https://github.com/octocat")).

Definition commit_without_author : CommitData :=
  mkCommit "Fix typo" "https://github.com/weseek/slatify/commit/4f2c9a1"
           None.

(** A push event; the API knows the commit, the webhook answers [ack]. *)
Definition world (commit : CommitData) (ack : string) : World :=
  mkWorld push None
          (fun _ _ _ _ => inr commit)
          (fun _ _ _ => inr (mkResult ack)).

(** A pull-request event whose head branch is [head_ref]. *)
Definition pr_world (head_ref : string) : World :=
  mkWorld pull_request (Some head_ref)
          (fun _ _ _ _ => inr commit_with_author)
          (fun _ _ _ => inr (mkResult "ok")).

Definition no_defaults : IncomingWebhookDefaultArguments :=
  mkDefaults None None None None.

(** A push event while the API and the webhook are unreachable. *)
Definition offline : World :=
  mkWorld push None
          (fun _ _ _ _ => inl (UpstreamError "Not Found"))
          (fun _ _ _ => inl (UpstreamError "ECONNREFUSED")).

(** A pull-request event in a process without [GITHUB_HEAD_REF]. *)
Definition pr_world_without_head_ref : World :=
  mkWorld pull_request None
          (fun _ _ _ _ => inr commit_with_author)
          (fun _ _ _ => inr (mkResult "ok")).

(** The push event seen as a pull request: same commit, ref, actor and
    repository. *)
Definition push_as_pull_request : World :=
  mkWorld (mkContext "4f2c9a1" "pull_request" "CI" "refs/heads/master"
                     "octocat" "weseek" "slatify" (Some 7%N))
          (Some "feature")
          (fun _ _ _ _ => inl (UpstreamError "Not Found"))
          (fun _ _ _ => inr (mkResult "ok")).

End Scenario.

(** ** Views used in the statements *)

(** The three job statuses the action documents. *)
Definition statuses : list string := ["success"; "failure"; "cancelled"].

(** The heading of a field: the first line of its text. *)
Definition field_label (f : MrkdwnElement) : string :=
  fst (Js.split Js.LF (text f)).

Definition has_label (l : string) (fields : list MrkdwnElement) : bool :=
  existsb (fun f => field_label f =? l) fields.

(** The section blocks a payload carries, attachment by attachment. *)
Definition payload_blocks (p : Payload) : list SectionBlock :=
  flat_map blocks (attachments p).

Definition payload_colors (p : Payload) : list (option string) :=
  map att_color (attachments p).

(** A string without the character [c]. *)
Fixpoint free_of (c : ascii) (s : string) : bool :=
  match s with
  | EmptyString => true
  | String d t => negb (Ascii.eqb d c) && free_of c t
  end.

(** Stripping a leading [pre] and nothing else: what "a leading prefix
    stripped" says, to compare with [Js.replace]. *)
Definition strip_leading (pre s : string) : string :=
  if String.prefix pre s then Js.drop (String.length pre) s else s.

(** Whether [pat] occurs somewhere in [s]. *)
Fixpoint occurs (pat s : string) : bool :=
  String.prefix pat s
  || match s with
     | EmptyString => false
     | String _ t => occurs pat t
     end.

(** ** Strings *)

Lemma append_assoc (a b c : string) : (a ++ b) ++ c = a ++ b ++ c.
Proof.
  induction a as [|x a IH]; simpl; [reflexivity|]. now rewrite IH.
Qed.

Lemma append_nil_r (a : string) : a ++ "" = a.
Proof.
  induction a as [|x a IH]; simpl; [reflexivity|]. now rewrite IH.
Qed.

Lemma length_append (a b : string) :
  String.length (a ++ b) = String.length a + String.length b.
Proof.
  induction a as [|x a IH]; simpl; [reflexivity|]. now rewrite IH.
Qed.

Lemma append_neq_self (a b : string) : a <> "" -> a ++ b <> b.
Proof.
  intros Ha E. apply (f_equal String.length) in E.
  rewrite length_append in E.
  destruct a; [congruence | simpl in E; lia].
Qed.

Lemma fst_split_cons (sep c : ascii) (t : string) :
  fst (Js.split sep (String c t)) =
  if Ascii.eqb c sep then "" else String c (fst (Js.split sep t)).
Proof.
  simpl. destruct (Js.split sep t) as [h r].
  destruct (Ascii.eqb c sep); reflexivity.
Qed.

(** The first piece of a split is what precedes the first separator. *)
Lemma fst_split_app (sep : ascii) (s rest : string) :
  free_of sep s = true ->
  fst (Js.split sep (s ++ String sep rest)) = s.
Proof.
  induction s as [|c s IH]; intros F.
  - simpl (_ ++ _). rewrite fst_split_cons, Ascii.eqb_refl. reflexivity.
  - simpl in F. apply andb_true_iff in F as [Hc F].
    simpl (_ ++ _). rewrite fst_split_cons.
    apply negb_true_iff in Hc. rewrite Hc, IH by exact F. reflexivity.
Qed.

Lemma fst_split_free (sep : ascii) (s : string) :
  free_of sep (fst (Js.split sep s)) = true.
Proof.
  induction s as [|c s IH]; [reflexivity|].
  rewrite fst_split_cons. destruct (Ascii.eqb c sep) eqn:E; [reflexivity|].
  simpl. now rewrite E, IH.
Qed.

(** [split] cuts [s] at its first separator, or not at all. *)
Lemma fst_split_spec (sep : ascii) (s : string) :
  s = fst (Js.split sep s)
  \/ exists rest, s = fst (Js.split sep s) ++ String sep rest.
Proof.
  induction s as [|c s IH]; [now left|].
  rewrite fst_split_cons. destruct (Ascii.eqb_spec c sep) as [->|N].
  - right. now exists s.
  - destruct IH as [E | [rest E]].
    + left. simpl. now rewrite <- E.
    + right. exists rest. simpl. now rewrite <- E.
Qed.

Lemma label_of_text (l body ty : string) :
  free_of Js.LF l = true ->
  field_label (mkMrkdwn ty (l ++ Js.nl ++ body)) = l.
Proof.
  intros F. unfold field_label, Js.nl. simpl text.
  now apply fst_split_app.
Qed.

(** ** The [Async] monad *)

Lemma bind_ret_l {A B} (a : A) (k : A -> Async B) : bind (ret a) k = k a.
Proof. unfold bind, ret. destruct (k a). reflexivity. Qed.

Lemma bind_inr {A B} (m : Async A) (k : A -> Async B) tr b :
  bind m k = (tr, inr b) ->
  exists tr1 a tr2, m = (tr1, inr a) /\ k a = (tr2, inr b)
                    /\ tr = (tr1 ++ tr2)%list.
Proof.
  destruct m as [tr1 [e|a]]; simpl; [discriminate|].
  destruct (k a) as [tr2 r] eqn:K. intros E. inversion E; subst.
  now exists tr1, a, tr2.
Qed.

Lemma ret_inr {A} (a b : A) tr : ret a = (tr, inr b) -> tr = [] /\ a = b.
Proof. unfold ret. intros E. inversion E. auto. Qed.

(** ** [Block]: accessors and the commit lookup *)

Lemma get_status (w : World) (status : string) :
  In status statuses ->
  exists a, Block.get w status = Some (Block.MAccessory a)
            /\ In (status, color a, result a)
                  [ ("success", "#2cbe4e", "Succeeded");
                    ("failure", "#cb2431", "Failed");
                    ("cancelled", "#ffc107", "Cancelled") ].
Proof.
  unfold statuses. simpl.
  intros [<- | [<- | [<- | []]]].
  - exists Block.success. split; [reflexivity | simpl; auto].
  - exists Block.failure. split; [reflexivity | simpl; auto].
  - exists Block.cancelled. split; [reflexivity | simpl; auto].
Qed.

Lemma lookup_None (key : string) (l : list (string * Block.Member)) :
  ~ In key (map fst l) -> Block.lookup key l = None.
Proof.
  induction l as [|[k m] l IH]; simpl; intros N; [reflexivity|].
  destruct (String.eqb_spec key k) as [->|_]; [tauto|].
  apply IH. tauto.
Qed.

Lemma lookup_Some (key : string) (l : list (string * Block.Member)) m :
  Block.lookup key l = Some m -> In key (map fst l).
Proof.
  induction l as [|[k m'] l IH]; simpl; [discriminate|].
  destruct (String.eqb_spec key k) as [->|_]; auto.
Qed.

Lemma baseFields_labels (w : World) :
  map field_label (Block.baseFields w) =
  ["*repository*"; "*ref*"; "*event name*"; "*workflow*"].
Proof.
  unfold Block.baseFields. cbv [map].
  rewrite !label_of_text by reflexivity. reflexivity.
Qed.

Lemma commitField_label (commit : CommitData) :
  field_label (Block.commitField commit) = "*commit*".
Proof. unfold Block.commitField. now rewrite label_of_text. Qed.

Lemma authorField_label (a : CommitAuthor) :
  field_label (Block.authorField a) = "*author*".
Proof. unfold Block.authorField. now rewrite label_of_text. Qed.

Lemma commitFieldsOf_labels (commit : CommitData) :
  map field_label (Block.commitFieldsOf commit) =
  match author commit with
  | Some _ => ["*commit*"; "*author*"]
  | None => ["*commit*"]
  end.
Proof.
  unfold Block.commitFieldsOf. destruct (author commit); simpl;
    now rewrite ?commitField_label, ?authorField_label.
Qed.

Lemma has_label_map (l : string) (fields : list MrkdwnElement) :
  has_label l fields = existsb (String.eqb l) (map field_label fields).
Proof.
  unfold has_label. induction fields as [|f fs IH]; simpl; [reflexivity|].
  now rewrite IH, String.eqb_sym.
Qed.

Lemma has_label_app (l : string) (xs ys : list MrkdwnElement) :
  has_label l (xs ++ ys) = has_label l xs || has_label l ys.
Proof. unfold has_label. apply existsb_app. Qed.

(** What a successful commit lookup did: one API call, for the ref
    [commitRef] chose, answered with the commit the fields are built from. *)
Lemma getCommitFields_inr (w : World) (token : string) tr fields :
  Block.getCommitFields w token = (tr, inr fields) ->
  exists r commit,
    Block.commitRef w = ([], inr r)
    /\ repos_getCommit w token (owner (context w)) (repo (context w)) r
       = inr commit
    /\ tr = [GetCommit token (owner (context w)) (repo (context w)) r]
    /\ fields = Block.commitFieldsOf commit.
Proof.
  unfold Block.getCommitFields, Block.commitRef.
  destruct (Block.isPullRequest w).
  - destruct (GITHUB_HEAD_REF w) as [h|]; [|discriminate].
    rewrite bind_ret_l. unfold request, bind.
    destruct (repos_getCommit w token _ _ _) as [e|commit] eqn:G;
      [discriminate|].
    simpl. intros E. inversion E; subst. now exists (Js.replace "refs/heads/" "" h), commit.
  - rewrite bind_ret_l. unfold request, bind.
    destruct (repos_getCommit w token _ _ _) as [e|commit] eqn:G;
      [discriminate|].
    simpl. intros E. inversion E; subst. now exists (sha (context w)), commit.
Qed.

Lemma getCommitFields_ok (w : World) (token r : string) commit :
  Block.commitRef w = ([], inr r) ->
  repos_getCommit w token (owner (context w)) (repo (context w)) r
    = inr commit ->
  Block.getCommitFields w token =
  ([GetCommit token (owner (context w)) (repo (context w)) r],
   inr (Block.commitFieldsOf commit)).
Proof.
  intros R G. unfold Block.getCommitFields. rewrite R.
  change (@pair (list NetCall) (JsError + string) [] (inr r)) with (ret r).
  rewrite bind_ret_l. unfold request, bind. rewrite G. reflexivity.
Qed.

(** ** [Slack.generatePayload]: one lemma per rendering mode *)

Section GeneratePayload.

Variable w : World.
Variables jobName status mention mentionCondition : string.
Variable commitFlag : bool.
Variable created_tag : string.
Variable token : option string.

Let c := context w.

(** The summary text line 188 to 191 compose for the label [label]. *)
Let summary (label : option string) : string :=
  if negb (mention =? "") && Slack.isMention mentionCondition status
  then "<!" ++ mention ++ "> " ++ jobName ++ " " ++ Js.show label
  else jobName ++ " " ++ Js.show label.

Let compactText (label : option string) : string :=
  "[<" ++ Block.repoUrl c ++ "|" ++ owner c ++ "/" ++ repo c ++ ">] "
    ++ Js.show label ++ " by " ++ actor c ++ " on " ++ ref c
    ++ ", check <" ++ (Block.repoUrl c ++ "/commit/" ++ sha c ++ "/checks")
    ++ "|" ++ workflow c ++ ">".

Lemma generatePayload_undefined isCompactMode isReleaseMode :
  Block.get w status = None ->
  Slack.generatePayload w jobName status mention mentionCondition commitFlag
    isCompactMode isReleaseMode created_tag token
  = ([], inl TypeError).
Proof. unfold Slack.generatePayload. now intros ->. Qed.

Lemma generatePayload_inr isCompactMode isReleaseMode tr p :
  Slack.generatePayload w jobName status mention mentionCondition commitFlag
    isCompactMode isReleaseMode created_tag token
  = (tr, inr p) ->
  exists nt body,
    Block.get w status = Some nt
    /\ p = mkPayload (summary (Block.get_result nt))
                     [mkAttachment (Block.get_color nt) [body]] true.
Proof.
  unfold Slack.generatePayload.
  destruct (Block.get w status) as [nt|]; [|discriminate].
  cbv zeta. intros E.
  apply bind_inr in E as (tr1 & body & tr2 & _ & K & _).
  apply ret_inr in K as [_ <-]. now exists nt, body.
Qed.

Lemma generatePayload_compact isReleaseMode nt :
  Block.get w status = Some nt ->
  Slack.generatePayload w jobName status mention mentionCondition commitFlag
    true isReleaseMode created_tag token
  = ([], inr (mkPayload (summary (Block.get_result nt))
                [mkAttachment (Block.get_color nt)
                   [Slack.section_text
                      (mkMrkdwn "mrkdwn" (compactText (Block.get_result nt)))]]
                true)).
Proof. unfold Slack.generatePayload. now intros ->. Qed.

Lemma generatePayload_release nt :
  Block.get w status = Some nt ->
  Slack.generatePayload w jobName status mention mentionCondition commitFlag
    false true created_tag token
  = ([], inr (mkPayload (summary (Block.get_result nt))
                [mkAttachment (Block.get_color nt)
                   [Slack.section_text
                      (mkMrkdwn "mrkdwn"
                         ("https://github.com/weseek/growi/releases/tag/"
                            ++ created_tag))]]
                true)).
Proof. unfold Slack.generatePayload. now intros ->. Qed.

(** Full mode without enrichment: no network call, the four base fields. *)
Lemma generatePayload_full_plain nt :
  Block.get w status = Some nt ->
  commitFlag && Js.truthy token = false ->
  Slack.generatePayload w jobName status mention mentionCondition commitFlag
    false false created_tag token
  = ([], inr (mkPayload (summary (Block.get_result nt))
                [mkAttachment (Block.get_color nt)
                   [Slack.section_fields (Block.baseFields w)]]
                true)).
Proof.
  unfold Slack.generatePayload, Js.truthy. intros -> F.
  destruct token as [tok|]; [|reflexivity].
  now rewrite F.
Qed.

(** Full mode with enrichment, when the lookup answers. *)
Lemma generatePayload_full_enriched nt tok r commit :
  Block.get w status = Some nt ->
  commitFlag = true -> token = Some tok -> tok <> "" ->
  Block.commitRef w = ([], inr r) ->
  repos_getCommit w tok (owner c) (repo c) r = inr commit ->
  Slack.generatePayload w jobName status mention mentionCondition commitFlag
    false false created_tag token
  = ([GetCommit tok (owner c) (repo c) r],
     inr (mkPayload (summary (Block.get_result nt))
            [mkAttachment (Block.get_color nt)
               [Slack.section_fields
                  (Block.baseFields w ++ Block.commitFieldsOf commit)%list]]
            true)).
Proof.
  unfold Slack.generatePayload. intros -> -> -> N R G.
  apply String.eqb_neq in N. rewrite N. cbv zeta. simpl andb. cbv iota.
  rewrite (getCommitFields_ok w tok r commit R G). reflexivity.
Qed.

(** Every payload Full mode returns is one of the two above. *)
Lemma generatePayload_full_inr tr p :
  Slack.generatePayload w jobName status mention mentionCondition commitFlag
    false false created_tag token
  = (tr, inr p) ->
  (commitFlag && Js.truthy token = false
   /\ tr = []
   /\ payload_blocks p = [Slack.section_fields (Block.baseFields w)])
  \/
  (commitFlag && Js.truthy token = true
   /\ exists tok r commit,
       token = Some tok
       /\ Block.commitRef w = ([], inr r)
       /\ repos_getCommit w tok (owner c) (repo c) r = inr commit
       /\ tr = [GetCommit tok (owner c) (repo c) r]
       /\ payload_blocks p =
          [Slack.section_fields
             (Block.baseFields w ++ Block.commitFieldsOf commit)%list]).
Proof.
  intros E.
  destruct (Block.get w status) as [nt|] eqn:G;
    [|rewrite generatePayload_undefined in E by exact G; discriminate].
  destruct (commitFlag && Js.truthy token) eqn:T.
  - right. split; [reflexivity|].
    apply andb_true_iff in T as [Hc Ht].
    destruct token as [tok|] eqn:Tok; [|discriminate].
    simpl in Ht. apply negb_true_iff in Ht.
    revert E. unfold Slack.generatePayload. rewrite G, Hc, Ht.
    cbv zeta. simpl andb. cbv iota. intros E.
    apply bind_inr in E as (tr1 & body & tr2 & B & K & ->).
    apply ret_inr in K as [-> <-].
    apply bind_inr in B as (tr3 & fields & tr4 & F & K & ->).
    apply ret_inr in K as [-> <-].
    apply getCommitFields_inr in F as (r & commit & R & A & -> & ->).
    exists tok, r, commit. repeat split; auto.
  - left. split; [reflexivity|].
    rewrite (generatePayload_full_plain nt G T) in E.
    inversion E; subst. split; reflexivity.
Qed.

End GeneratePayload.

(** ** The summary text and the accessory *)

(** C1.  The mention marker is prepended to the summary text if and only if
    [mention] is non-empty and [mentionCondition] is ["always"] or equals
    the status; the marked text is ["<!"], the mention, ["> "], then the job
    name, a space and the result label, and the unmarked text is the job
    name, a space and the result label. *)
Theorem mention_prepended_iff (w : World)
    (jobName status mention mentionCondition : string)
    (commitFlag isCompactMode isReleaseMode : bool) (created_tag : string)
    (token : option string) (a : Accessory) tr p :
  Block.get w status = Some (Block.MAccessory a) ->
  Slack.generatePayload w jobName status mention mentionCondition commitFlag
    isCompactMode isReleaseMode created_tag token = (tr, inr p) ->
  let tmpText := jobName ++ " " ++ result a in
  let prepend :=
    mention <> "" /\ (mentionCondition = "always" \/ mentionCondition = status)
  in
  (payload_text p = "<!" ++ mention ++ "> " ++ tmpText <-> prepend)
  /\ (~ prepend -> payload_text p = tmpText).
Proof.
  intros G E tmpText prepend.
  apply generatePayload_inr in E as (nt & body & G' & ->).
  rewrite G in G'. injection G' as <-. simpl payload_text.
  simpl Block.get_result. simpl Js.show. fold tmpText.
  assert (D : negb (mention =? "")
              && Slack.isMention mentionCondition status = true
              <-> prepend).
  { unfold prepend, Slack.isMention.
    rewrite andb_true_iff, negb_true_iff, orb_true_iff, String.eqb_neq,
      !String.eqb_eq. reflexivity. }
  destruct (negb (mention =? "")
            && Slack.isMention mentionCondition status) eqn:B.
  - split; [split; [intros _; now apply D | reflexivity]|].
    intros N. exfalso. apply N. now apply D.
  - split; [|reflexivity].
    split; [|intros P; apply D in P; discriminate].
    intros T. exfalso.
    apply (append_neq_self ("<!" ++ mention ++ "> ") tmpText);
      [simpl; discriminate|].
    rewrite !append_assoc. symmetry. exact T.
Qed.

(** Scenario B: a failure, mention ["channel"], condition ["always"]. *)
Lemma mention_prepended_iff_witness :
  exists p,
    Slack.generatePayload
      (Scenario.world Scenario.commit_with_author "ok")
      "build" "failure" "channel" "always" false false false "" None
    = ([], inr p)
    /\ payload_text p = "<!channel> build Failed".
Proof.
  eexists. split; [reflexivity|].
  apply (mention_prepended_iff
           (Scenario.world Scenario.commit_with_author "ok")
           "build" "failure" "channel" "always" false false false "" None
           Block.failure [] _ eq_refl eq_refl).
  split; [discriminate | left; reflexivity].
Defined.

(** C2.  For each status of success, failure and cancelled the resolved
    accessory is the fixed pair of that status (["#2cbe4e"] and
    ["Succeeded"], ["#cb2431"] and ["Failed"], ["#ffc107"] and
    ["Cancelled"]), and its colour is the colour of the payload's
    attachment. *)
Theorem accessory_fixed_pair (w : World)
    (jobName status mention mentionCondition : string)
    (commitFlag isCompactMode isReleaseMode : bool) (created_tag : string)
    (token : option string) tr p :
  In status statuses ->
  Slack.generatePayload w jobName status mention mentionCondition commitFlag
    isCompactMode isReleaseMode created_tag token = (tr, inr p) ->
  exists a,
    Block.get w status = Some (Block.MAccessory a)
    /\ In (status, color a, result a)
          [ ("success", "#2cbe4e", "Succeeded");
            ("failure", "#cb2431", "Failed");
            ("cancelled", "#ffc107", "Cancelled") ]
    /\ payload_colors p = [Some (color a)].
Proof.
  intros S E. destruct (get_status w status S) as (a & G & T).
  exists a. repeat split; auto.
  apply generatePayload_inr in E as (nt & body & G' & ->).
  rewrite G in G'. injection G' as <-. reflexivity.
Qed.

(** Scenario A: a success in Full mode without commit lookup. *)
Lemma accessory_fixed_pair_witness :
  exists p a,
    Slack.generatePayload
      (Scenario.world Scenario.commit_with_author "ok")
      "build" "success" "" "" false false false "" None
    = ([], inr p)
    /\ color a = "#2cbe4e" /\ result a = "Succeeded"
    /\ payload_colors p = [Some (color a)].
Proof.
  eexists.
  destruct (accessory_fixed_pair
              (Scenario.world Scenario.commit_with_author "ok")
              "build" "success" "" "" false false false "" None [] _
              (or_introl eq_refl) eq_refl) as (a & G & T & C).
  exists a. injection G as <-.
  repeat split; auto.
Defined.


(** ** Full mode *)

(** C4.  In Full mode (neither compact nor release) the payload carries one
    section whose field sequence starts with exactly the four context fields
    of [baseFields], headed repository, ref, event name and workflow in this
    order; what follows them is only commit and author fields. *)
Theorem full_mode_starts_with_context_fields (w : World)
    (jobName status mention mentionCondition : string) (commitFlag : bool)
    (created_tag : string) (token : option string) tr p :
  Slack.generatePayload w jobName status mention mentionCondition commitFlag
    false false created_tag token = (tr, inr p) ->
  exists fields,
    payload_blocks p = [mkBlock "section" None (Some fields)]
    /\ firstn 4 fields = Block.baseFields w
    /\ map field_label (firstn 4 fields)
       = ["*repository*"; "*ref*"; "*event name*"; "*workflow*"]
    /\ Forall (fun f => field_label f = "*commit*"
                        \/ field_label f = "*author*")
              (skipn 4 fields).
Proof.
  intros E.
  apply generatePayload_full_inr in E
    as [(_ & _ & B) | (_ & tok & r & commit & _ & _ & _ & _ & B)].
  - exists (Block.baseFields w). split; [exact B|].
    split; [reflexivity|]. split; [apply baseFields_labels|].
    constructor.
  - exists (Block.baseFields w ++ Block.commitFieldsOf commit)%list.
    split; [exact B|].
    split; [reflexivity|]. split; [apply baseFields_labels|].
    change (skipn 4 (Block.baseFields w ++ Block.commitFieldsOf commit))
      with (Block.commitFieldsOf commit).
    unfold Block.commitFieldsOf. destruct (author commit) as [a|].
    + constructor; [left; apply commitField_label|].
      constructor; [right; apply authorField_label | constructor].
    + constructor; [left; apply commitField_label | constructor].
Qed.

(** A push with commit lookup: four context fields, then commit and
    author. *)
Lemma full_mode_starts_with_context_fields_witness :
  exists tr p fields,
    Slack.generatePayload
      (Scenario.world Scenario.commit_with_author "ok")
      "build" "success" "" "" true false false "" (Some "ghp_token")
    = (tr, inr p)
    /\ payload_blocks p = [mkBlock "section" None (Some fields)]
    /\ map field_label fields
       = ["*repository*"; "*ref*"; "*event name*"; "*workflow*";
          "*commit*"; "*author*"]
    /\ Forall (fun f => field_label f = "*commit*"
                        \/ field_label f = "*author*")
              (skipn 4 fields).
Proof.
  eexists. eexists.
  destruct (full_mode_starts_with_context_fields
              (Scenario.world Scenario.commit_with_author "ok")
              "build" "success" "" "" true "" (Some "ghp_token")
              _ _ eq_refl) as (fields & B & _ & _ & F).
  injection B as <-.
  eexists. split; [reflexivity|]. split; [reflexivity|].
  split; [reflexivity | exact F].
Defined.

(** C5.  In Full mode the commit field is in the payload if and only if
    [commitFlag] is true and a non-empty token is given; when the lookup
    ran, the author field is in the payload if and only if the fetched
    commit has an author; and a commit without author still yields a
    payload. *)
Theorem commit_enrichment_iff (w : World)
    (jobName status mention mentionCondition : string) (commitFlag : bool)
    (created_tag : string) (token : option string) :
  (forall tr p,
      Slack.generatePayload w jobName status mention mentionCondition
        commitFlag false false created_tag token = (tr, inr p) ->
      exists fields,
        payload_blocks p = [mkBlock "section" None (Some fields)]
        /\ (has_label "*commit*" fields = true
            <-> commitFlag = true
                /\ exists tok, token = Some tok /\ tok <> "")
        /\ (has_label "*commit*" fields = false ->
            has_label "*author*" fields = false /\ tr = [])
        /\ (has_label "*commit*" fields = true ->
            exists tok r commit,
              token = Some tok
              /\ tr = [GetCommit tok (owner (context w)) (repo (context w)) r]
              /\ repos_getCommit w tok (owner (context w))
                   (repo (context w)) r = inr commit
              /\ (has_label "*author*" fields = true
                  <-> author commit <> None)))
  /\ (forall nt tok r commit,
         Block.get w status = Some nt ->
         commitFlag = true -> token = Some tok -> tok <> "" ->
         Block.commitRef w = ([], inr r) ->
         repos_getCommit w tok (owner (context w)) (repo (context w)) r
           = inr commit ->
         author commit = None ->
         exists p,
           Slack.generatePayload w jobName status mention mentionCondition
             commitFlag false false created_tag token
           = ([GetCommit tok (owner (context w)) (repo (context w)) r], inr p)
           /\ payload_blocks p =
              [mkBlock "section" None
                 (Some (Block.baseFields w ++ [Block.commitField commit])%list)]).
Proof.
  split.
  - intros tr p E.
    apply generatePayload_full_inr in E
      as [(T & -> & B) | (T & tok & r & commit & -> & _ & G & -> & B)].
    + exists (Block.baseFields w). split; [exact B|].
      assert (L : forall l, In l ["*commit*"; "*author*"] ->
                            has_label l (Block.baseFields w) = false).
      { intros l [<- | [<- | []]];
          now rewrite has_label_map, baseFields_labels. }
      rewrite !L by (simpl; auto).
      split; [|split; [auto | discriminate]].
      split; [discriminate|].
      intros (-> & tok & -> & N). simpl in T.
      apply String.eqb_neq in N. now rewrite N in T.
    + exists (Block.baseFields w ++ Block.commitFieldsOf commit)%list.
      split; [exact B|].
      assert (C : has_label "*commit*"
                    (Block.baseFields w ++ Block.commitFieldsOf commit)
                  = true).
      { rewrite has_label_app, !has_label_map, commitFieldsOf_labels.
        destruct (author commit); apply orb_true_r. }
      rewrite C. apply andb_true_iff in T as [-> T]. simpl in T.
      apply negb_true_iff, String.eqb_neq in T.
      split; [split; [intros _; split; [reflexivity | now exists tok]
                     | reflexivity]|].
      split; [discriminate|]. intros _.
      exists tok, r, commit. repeat split; auto.
      * rewrite has_label_app, !has_label_map, commitFieldsOf_labels,
          baseFields_labels.
        destruct (author commit); simpl; congruence.
      * rewrite has_label_app, !has_label_map, commitFieldsOf_labels,
          baseFields_labels.
        destruct (author commit); simpl; congruence.
  - intros nt tok r commit G C T N R A Au.
    eexists. split.
    + apply (generatePayload_full_enriched w jobName status mention
               mentionCondition commitFlag created_tag token nt tok r commit);
        assumption.
    + unfold payload_blocks, Block.commitFieldsOf. rewrite Au. reflexivity.
Qed.

(** A push whose commit has no GitHub author: the commit field is there,
    the author field is not, and the payload is returned. *)
Lemma commit_enrichment_iff_witness :
  exists p fields,
    Slack.generatePayload
      (Scenario.world Scenario.commit_without_author "ok")
      "build" "success" "" "" true false false "" (Some "ghp_token")
    = ([GetCommit "ghp_token" "weseek" "slatify" "4f2c9a1"], inr p)
    /\ payload_blocks p = [mkBlock "section" None (Some fields)]
    /\ map field_label fields
       = ["*repository*"; "*ref*"; "*event name*"; "*workflow*"; "*commit*"].
Proof.
  destruct (proj2 (commit_enrichment_iff
                     (Scenario.world Scenario.commit_without_author "ok")
                     "build" "success" "" "" true "" (Some "ghp_token"))
                  (Block.MAccessory Block.success) "ghp_token" "4f2c9a1"
                  Scenario.commit_without_author
                  eq_refl eq_refl eq_refl ltac:(discriminate)
                  eq_refl eq_refl eq_refl) as (p & E & B).
  exists p. eexists. split; [exact E|]. split; [exact B|]. reflexivity.
Defined.


(** ** Compact and release mode *)

(** C7.  In compact mode the payload carries one section with a single text
    field and no field list; the text is the repository link in square
    brackets, the result label, [by] the actor, [on] the ref, and [check]
    followed by the workflow link.  The repository link shows owner and
    repository and points to [https://github.com/<owner>/<repo>]; the
    workflow link shows the workflow name and points to the checks page of
    the commit there, [/commit/<sha>/checks].  The attachment has the colour
    of the status, which for [cancelled] is ["#ffc107"]. *)
Theorem compact_mode_single_text_field (w : World)
    (jobName status mention mentionCondition : string)
    (commitFlag isReleaseMode : bool) (created_tag : string)
    (token : option string) (a : Accessory) :
  Block.get w status = Some (Block.MAccessory a) ->
  let c := context w in
  let repoLink :=
    "<" ++ "https://github.com/" ++ owner c ++ "/" ++ repo c ++ "|"
      ++ owner c ++ "/" ++ repo c ++ ">" in
  let workflowLink :=
    "<" ++ "https://github.com/" ++ owner c ++ "/" ++ repo c ++ "/commit/"
      ++ sha c ++ "/checks" ++ "|" ++ workflow c ++ ">" in
  exists p,
    Slack.generatePayload w jobName status mention mentionCondition commitFlag
      true isReleaseMode created_tag token = ([], inr p)
    /\ payload_blocks p =
       [mkBlock "section"
          (Some (mkMrkdwn "mrkdwn"
                   ("[" ++ repoLink ++ "] " ++ result a ++ " by " ++ actor c
                      ++ " on " ++ ref c ++ ", check " ++ workflowLink)))
          None]
    /\ payload_colors p = [Some (color a)]
    /\ (status = "cancelled" ->
        result a = "Cancelled" /\ payload_colors p = [Some "#ffc107"]).
Proof.
  intros G c repoLink workflowLink.
  eexists. split; [apply generatePayload_compact; exact G|].
  split.
  - unfold payload_blocks, Slack.section_text, repoLink, workflowLink,
      Block.repoUrl, c.
    simpl. repeat (rewrite !append_assoc; simpl). reflexivity.
  - split; [reflexivity|]. intros ->.
    injection G as <-. split; reflexivity.
Qed.

(** Scenario C: a cancelled job in compact mode. *)
Lemma compact_mode_single_text_field_witness :
  exists p,
    Slack.generatePayload
      (Scenario.world Scenario.commit_with_author "ok")
      "build" "cancelled" "" "" false true false "" None = ([], inr p)
    /\ payload_blocks p =
       [mkBlock "section"
          (Some (mkMrkdwn "mrkdwn"
                   ("[<https://github.com/weseek/slatify|weseek/slatify>] "
                      ++ "Cancelled by octocat on refs/heads/master, check "
                      ++ "<https://github.com/weseek/slatify/commit/4f2c9a1"
                      ++ "/checks|CI>")))
          None]
    /\ payload_colors p = [Some "#ffc107"].
Proof.
  destruct (compact_mode_single_text_field
              (Scenario.world Scenario.commit_with_author "ok")
              "build" "cancelled" "" "" false false "" None
              Block.cancelled eq_refl) as (p & E & B & _ & C).
  exists p. split; [exact E|]. split; [exact B|].
  exact (proj2 (C eq_refl)).
Defined.

(** C8.  In release mode (compact mode off) the payload carries one section
    with a single text field and no field list; the text is the fixed
    prefix [https://github.com/weseek/growi/releases/tag/] followed by the
    created tag, whatever the event context is. *)
Theorem release_mode_single_text_field (w : World)
    (jobName status mention mentionCondition : string) (commitFlag : bool)
    (created_tag : string) (token : option string) :
  In status statuses ->
  exists p,
    Slack.generatePayload w jobName status mention mentionCondition commitFlag
      false true created_tag token = ([], inr p)
    /\ payload_blocks p =
       [mkBlock "section"
          (Some (mkMrkdwn "mrkdwn"
                   ("https://github.com/weseek/growi/releases/tag/"
                      ++ created_tag)))
          None]
    /\ forall f, In (Some f) (map block_text (payload_blocks p)) ->
                 Js.includes (text f) created_tag.
Proof.
  intros S. destruct (get_status w status S) as (a & G & _).
  eexists. split; [apply generatePayload_release; exact G|].
  split; [reflexivity|].
  intros f [E | []]. injection E as <-.
  exists "https://github.com/weseek/growi/releases/tag/", "".
  simpl text. now rewrite append_nil_r.
Qed.

(** Scenario D: the release of [v1.2.3]. *)
Lemma release_mode_single_text_field_witness :
  exists p,
    Slack.generatePayload
      (Scenario.world Scenario.commit_with_author "ok")
      "build" "success" "" "" false false true "v1.2.3" None = ([], inr p)
    /\ payload_blocks p =
       [mkBlock "section"
          (Some (mkMrkdwn "mrkdwn"
                   "https://github.com/weseek/growi/releases/tag/v1.2.3"))
          None].
Proof.
  destruct (release_mode_single_text_field
              (Scenario.world Scenario.commit_with_author "ok")
              "build" "success" "" "" false "v1.2.3" None
              (or_introl eq_refl)) as (p & E & B & _).
  exists p. split; [exact E | exact B].
Defined.

(** C10.  With both mode flags on, the payload is the compact one: it is
    the payload of compact mode with release mode off, for every created
    tag, so neither the release flag nor the tag is looked at. *)
Theorem compact_takes_precedence (w : World)
    (jobName status mention mentionCondition : string) (commitFlag : bool)
    (created_tag other_tag : string) (token : option string) :
  Slack.generatePayload w jobName status mention mentionCondition commitFlag
    true true created_tag token
  = Slack.generatePayload w jobName status mention mentionCondition commitFlag
      true false other_tag token
  /\ forall nt,
      Block.get w status = Some nt ->
      exists p f,
        Slack.generatePayload w jobName status mention mentionCondition
          commitFlag true true created_tag token = ([], inr p)
        /\ Block.getCompactModeTextField w (Block.get_result nt)
           = ([], inr f)
        /\ payload_blocks p = [mkBlock "section" (Some f) None].
Proof.
  split.
  - unfold Slack.generatePayload.
    destruct (Block.get w status); reflexivity.
  - intros nt G. eexists. eexists.
    split; [apply generatePayload_compact; exact G|].
    split; reflexivity.
Qed.

(** Both flags on for a successful job. *)
Lemma compact_takes_precedence_witness :
  exists p,
    Slack.generatePayload
      (Scenario.world Scenario.commit_with_author "ok")
      "build" "success" "" "" false true true "v1.2.3" None = ([], inr p)
    /\ map block_fields (payload_blocks p) = [None]
    /\ payload_blocks p <>
       [mkBlock "section"
          (Some (mkMrkdwn "mrkdwn"
                   "https://github.com/weseek/growi/releases/tag/v1.2.3"))
          None].
Proof.
  destruct (proj2 (compact_takes_precedence
                     (Scenario.world Scenario.commit_with_author "ok")
                     "build" "success" "" "" false "v1.2.3" "" None)
                  (Block.MAccessory Block.success) eq_refl)
    as (p & f & E & F & B).
  exists p. split; [exact E|]. rewrite B.
  split; [reflexivity|].
  injection F as <-. discriminate.
Defined.


(** ** [Slack.notify] *)

(** C6.  [notify] makes the one webhook call and succeeds if and only if
    the acknowledgement text is exactly ["ok"]; for every other text, the
    empty one included, it throws an [Error] whose message contains that
    text. *)
Theorem notify_succeeds_iff_ok (w : World) (url : string)
    (options : IncomingWebhookDefaultArguments) (payload : Payload) :
  calls (Slack.notify w url options payload)
  = [WebhookSend url options payload]
  /\ (outcome (Slack.notify w url options payload) = inr tt
      <-> exists r, webhook_send w url options payload = inr r
                    /\ response_text r = "ok")
  /\ (forall r,
         webhook_send w url options payload = inr r ->
         response_text r <> "ok" ->
         exists msg,
           outcome (Slack.notify w url options payload) = inl (Error msg)
           /\ Js.includes msg (response_text r)).
Proof.
  unfold Slack.notify, request, bind, calls, outcome.
  destruct (webhook_send w url options payload) as [e|r].
  - split; [reflexivity|]. split; [|discriminate].
    split; [discriminate | intros (r & R & _); discriminate].
  - destruct (String.eqb_spec (response_text r) "ok") as [K|K]; simpl.
    + split; [reflexivity|]. split.
      * split; [intros _; now exists r | reflexivity].
      * intros r' R N. injection R as <-. contradiction.
    + split; [reflexivity|]. split.
      * split; [discriminate|].
        intros (r' & R & K'). injection R as <-. contradiction.
      * intros r' R _. injection R as <-.
        eexists. split; [reflexivity|].
        exists (Js.nl ++ "      Failed to send notification to Slack" ++ Js.nl
                  ++ "      Response: "),
               (Js.nl ++ "      ").
        unfold Slack.failureMessage.
        repeat (rewrite !append_assoc; simpl). reflexivity.
Qed.

(** Scenario E: the webhook answers ["error: invalid_payload"]. *)
Lemma notify_succeeds_iff_ok_witness :
  exists msg,
    Slack.notify
      (Scenario.world Scenario.commit_with_author "error: invalid_payload")
      "https://hooks.slack.com/services/T0/B0/x" Scenario.no_defaults
      (mkPayload "build Failed" [] true)
    = ([WebhookSend "https://hooks.slack.com/services/T0/B0/x"
          Scenario.no_defaults (mkPayload "build Failed" [] true)],
       inl (Error msg))
    /\ Js.includes msg "error: invalid_payload".
Proof.
  destruct (proj2 (proj2 (notify_succeeds_iff_ok
              (Scenario.world Scenario.commit_with_author
                 "error: invalid_payload")
              "https://hooks.slack.com/services/T0/B0/x" Scenario.no_defaults
              (mkPayload "build Failed" [] true)))
              (mkResult "error: invalid_payload") eq_refl
              ltac:(discriminate)) as (msg & E & I).
  exists msg. split; [|exact I].
  injection E as <-. reflexivity.
Defined.

(** The empty acknowledgement is a failure too. *)
Example notify_empty_acknowledgement :
  outcome (Slack.notify (Scenario.world Scenario.commit_with_author "")
             "https://hooks.slack.com/services/T0/B0/x" Scenario.no_defaults
             (mkPayload "build Failed" [] true))
  = inl (Error (Slack.failureMessage "")).
Proof. reflexivity. Qed.

(** ** Statuses outside the documented three *)

(** C3, as stated, fails: the status ["context"] is none of success,
    failure and cancelled, yet [slackBlockUI["context"]] is the event
    context, an object, so nothing throws; with the commit flag and a token
    the commit lookup is made and a payload is returned. *)
Lemma unknown_status_reaches_commit_lookup :
  ~ In "context" statuses
  /\ exists p,
      Slack.generatePayload
        (Scenario.world Scenario.commit_with_author "ok")
        "build" "context" "" "" true false false "" (Some "ghp_token")
      = ([GetCommit "ghp_token" "weseek" "slatify" "4f2c9a1"], inr p)
      /\ payload_text p = "build undefined"
      /\ payload_colors p = [None].
Proof.
  split.
  - unfold statuses. simpl. intros [H | [H | [H | []]]]; discriminate.
  - eexists. split; [reflexivity|]. split; reflexivity.
Qed.

(** C3, amended.  For every status that names no property of the [Block]
    object (its [context] field, its accessors and methods, and what it
    inherits from [Object.prototype]), [generatePayload] throws a
    [TypeError] before any network call, whatever the other arguments. *)
Theorem unknown_member_fails_fast (w : World)
    (jobName status mention mentionCondition : string)
    (commitFlag isCompactMode isReleaseMode : bool) (created_tag : string)
    (token : option string) :
  ~ In status (map fst (Block.members w)) ->
  Slack.generatePayload w jobName status mention mentionCondition commitFlag
    isCompactMode isReleaseMode created_tag token
  = ([], inl TypeError).
Proof.
  intros N. apply generatePayload_undefined.
  unfold Block.get. now apply lookup_None.
Qed.

Lemma unknown_member_fails_fast_witness :
  Slack.generatePayload
    (Scenario.world Scenario.commit_with_author "ok")
    "build" "skipped" "channel" "always" true false false ""
    (Some "ghp_token")
  = ([], inl TypeError).
Proof.
  apply (unknown_member_fails_fast
           (Scenario.world Scenario.commit_with_author "ok")
           "build" "skipped" "channel" "always" true false false ""
           (Some "ghp_token")).
  simpl. intuition discriminate.
Defined.

(** ** The ref of the commit lookup *)

Lemma prefix_drop (pat s : string) :
  String.prefix pat s = true -> s = pat ++ Js.drop (String.length pat) s.
Proof.
  revert s. induction pat as [|c pat IH]; intros s P; [reflexivity|].
  destruct s as [|d s]; [discriminate|]. simpl in P.
  destruct (Ascii.ascii_dec c d) as [->|]; [|discriminate].
  simpl. f_equal. now apply IH.
Qed.

(** [replace] leaves [s] alone or rewrites one occurrence of [pat]. *)
Lemma replace_occurrence (pat rep s : string) :
  Js.replace pat rep s = s
  \/ exists pre post,
      s = pre ++ pat ++ post /\ Js.replace pat rep s = pre ++ rep ++ post.
Proof.
  induction s as [|c s IH].
  - cbn -[String.prefix String.length Js.drop append].
    destruct (String.prefix pat "") eqn:P; [|now left].
    right. exists "", (Js.drop (String.length pat) "").
    split; [now apply prefix_drop | reflexivity].
  - cbn -[String.prefix String.length Js.drop append].
    destruct (String.prefix pat (String c s)) eqn:P.
    + right. exists "", (Js.drop (String.length pat) (String c s)).
      split; [now apply prefix_drop | reflexivity].
    + destruct IH as [-> | (pre & post & E & ->)]; [now left|].
      right. exists (String c pre), post. split; [|reflexivity].
      simpl. now rewrite <- E.
Qed.

Lemma replace_leading (pat rep s : string) :
  String.prefix pat s = true ->
  Js.replace pat rep s = rep ++ Js.drop (String.length pat) s.
Proof.
  intros P.
  destruct s; cbn -[String.prefix String.length Js.drop append];
    now rewrite P.
Qed.

(** Other events look up the triggering commit. *)
Lemma commitRef_other_event (w : World) :
  eventName (context w) <> "pull_request" ->
  Block.commitRef w = ([], inr (sha (context w))).
Proof.
  intros N. unfold Block.commitRef, Block.isPullRequest.
  apply String.eqb_neq in N. now rewrite N.
Qed.

(** A head ref that starts with [refs/heads/] loses this prefix. *)
Lemma commitRef_leading_prefix (w : World) (head_ref : string) :
  eventName (context w) = "pull_request" ->
  GITHUB_HEAD_REF w = Some head_ref ->
  String.prefix "refs/heads/" head_ref = true ->
  Block.commitRef w = ([], inr (strip_leading "refs/heads/" head_ref)).
Proof.
  intros E H P. unfold Block.commitRef, Block.isPullRequest, strip_leading.
  rewrite E, H, P, (replace_leading _ _ _ P). reflexivity.
Qed.

(** The commit field shows the first line of the message, linked to the
    commit: a piece without line feed that is the whole message or is
    followed in it by a line feed. *)
Lemma commitField_first_line (commit : CommitData) :
  exists first,
    text (Block.commitField commit)
    = "*commit*" ++ Js.nl ++ "<" ++ html_url commit ++ "|" ++ first ++ ">"
    /\ free_of Js.LF first = true
    /\ (message commit = first
        \/ exists rest, message commit = first ++ Js.nl ++ rest).
Proof.
  exists (fst (Js.split Js.LF (message commit))).
  split; [reflexivity|]. split; [apply fst_split_free|].
  destruct (fst_split_spec Js.LF (message commit)) as [E | [rest E]].
  - left. exact E.
  - right. exists rest. exact E.
Qed.

(** C9, at the input where the code departs from it: a pull request from
    the branch [feature/refs/heads/x].  The head ref has no leading
    [refs/heads/], so stripping a leading prefix leaves it as it is, but
    [replace] removes the occurrence inside the name and the lookup asks for
    [feature/x]. *)
Theorem head_ref_inner_occurrence_removed :
  let w := Scenario.pr_world "feature/refs/heads/x" in
  Block.isPullRequest w = true
  /\ strip_leading "refs/heads/" "feature/refs/heads/x"
     = "feature/refs/heads/x"
  /\ Block.commitRef w = ([], inr "feature/x")
  /\ calls (Block.getCommitFields w "ghp_token")
     = [GetCommit "ghp_token" "weseek" "slatify" "feature/x"].
Proof. repeat split. Qed.


(** ** Further properties of the commit lookup *)

(** [occurs] decides [Js.includes]. *)
Lemma prefix_append (pat post : string) : String.prefix pat (pat ++ post) = true.
Proof.
  induction pat as [|c pat IH]; simpl; [now destruct post|].
  destruct (Ascii.ascii_dec c c) as [_|N]; [exact IH | contradiction].
Qed.

Lemma occurs_includes (pat s : string) :
  occurs pat s = true <-> Js.includes s pat.
Proof.
  split.
  - induction s as [|c s IH]; cbn -[String.prefix]; intros O;
      apply orb_true_iff in O as [P | O]; try discriminate.
    + exists "", (Js.drop (String.length pat) ""). now apply prefix_drop.
    + exists "", (Js.drop (String.length pat) (String c s)).
      now apply prefix_drop.
    + destruct (IH O) as (pre & post & ->). now exists (String c pre), post.
  - intros (pre & post & ->). induction pre as [|c pre IH].
    + simpl append. destruct (pat ++ post) eqn:E; cbn -[String.prefix];
        rewrite <- E, prefix_append; reflexivity.
    + cbn -[String.prefix]. rewrite IH. apply orb_true_r.
Qed.

Lemma replace_absent (pat rep s : string) :
  occurs pat s = false -> Js.replace pat rep s = s.
Proof.
  induction s as [|c s IH]; cbn -[String.prefix String.length Js.drop append];
    intros O; apply orb_false_iff in O as [P O]; rewrite P; [reflexivity|].
  now rewrite IH.
Qed.

(** The lookup is one call for the ref [commitRef] chose, answered by the
    API. *)
Lemma getCommitFields_run (w : World) (token r : string) :
  Block.commitRef w = ([], inr r) ->
  Block.getCommitFields w token =
  ([GetCommit token (owner (context w)) (repo (context w)) r],
   match repos_getCommit w token (owner (context w)) (repo (context w)) r with
   | inl e => inl e
   | inr commit => inr (Block.commitFieldsOf commit)
   end).
Proof.
  intros R. unfold Block.getCommitFields. rewrite R.
  change (@pair (list NetCall) (JsError + string) [] (inr r)) with (ret r).
  rewrite bind_ret_l. unfold request, bind.
  destruct (repos_getCommit w token _ _ r); reflexivity.
Qed.

Lemma commitRef_cases (w : World) :
  (Block.commitRef w = ([], inl TypeError)
   /\ eventName (context w) = "pull_request" /\ GITHUB_HEAD_REF w = None)
  \/ exists r, Block.commitRef w = ([], inr r).
Proof.
  unfold Block.commitRef, Block.isPullRequest.
  destruct (String.eqb_spec (eventName (context w)) "pull_request") as [E|_].
  - destruct (GITHUB_HEAD_REF w) as [h|]; [right | left; auto].
    now exists (Js.replace "refs/heads/" "" h).
  - right. now exists (sha (context w)).
Qed.

Lemma getCommitFields_throws (w : World) (token : string) :
  Block.commitRef w = ([], inl TypeError) ->
  Block.getCommitFields w token = ([], inl TypeError).
Proof. intros R. unfold Block.getCommitFields. now rewrite R. Qed.

(** Full mode with enrichment runs the lookup and wraps its fields. *)
Lemma generatePayload_full_run (w : World)
    (jobName status mention mentionCondition : string) (commitFlag : bool)
    (created_tag : string) (token : option string) nt tok :
  Block.get w status = Some nt ->
  commitFlag = true -> token = Some tok -> tok <> "" ->
  calls (Slack.generatePayload w jobName status mention mentionCondition
           commitFlag false false created_tag token)
  = calls (Block.getCommitFields w tok)
  /\ match outcome (Block.getCommitFields w tok) with
     | inl e =>
         outcome (Slack.generatePayload w jobName status mention
                    mentionCondition commitFlag false false created_tag token)
         = inl e
     | inr _ =>
         exists p,
           outcome (Slack.generatePayload w jobName status mention
                      mentionCondition commitFlag false false created_tag
                      token)
           = inr p
     end.
Proof.
  intros G -> -> N. apply String.eqb_neq in N.
  unfold Slack.generatePayload. rewrite G, N. cbv zeta. simpl andb. cbv iota.
  destruct (Block.getCommitFields w tok) as [tr [e|fields]];
    unfold calls, outcome; simpl; rewrite ?app_nil_r;
    [split; reflexivity | split; [reflexivity | eexists; reflexivity]].
Qed.

Lemma get_member (w : World) (status : string) :
  In status (map fst (Block.members w)) ->
  exists nt, Block.get w status = Some nt.
Proof.
  unfold Block.get.
  induction (Block.members w) as [|[k m] l IH]; simpl; [contradiction|].
  destruct (String.eqb_spec status k) as [->|K]; [now exists m|].
  intros [S|S]; [congruence | auto].
Qed.

(** X10.  For every event other than a pull request the lookup asks for the
    triggering commit, [context.sha], whatever [GITHUB_HEAD_REF] holds or
    whether it is set at all. *)
Theorem other_events_look_up_sha (w : World) (token : string) :
  eventName (context w) <> "pull_request" ->
  calls (Block.getCommitFields w token)
  = [GetCommit token (owner (context w)) (repo (context w))
       (sha (context w))].
Proof.
  intros N.
  now rewrite (getCommitFields_run w token _ (commitRef_other_event w N)).
Qed.

Lemma other_events_look_up_sha_witness :
  calls (Block.getCommitFields Scenario.offline "ghp_token")
  = [GetCommit "ghp_token" "weseek" "slatify" "4f2c9a1"].
Proof.
  apply (other_events_look_up_sha Scenario.offline "ghp_token").
  simpl. discriminate.
Defined.

(** X9.  On a pull request whose head ref is [refs/heads/] followed by a
    branch name, the lookup asks for the branch name: the prefix is removed
    once, also when the branch name itself contains [refs/heads/]. *)
Theorem leading_branch_prefix_removed_once (w : World)
    (token branch : string) :
  eventName (context w) = "pull_request" ->
  GITHUB_HEAD_REF w = Some ("refs/heads/" ++ branch) ->
  calls (Block.getCommitFields w token)
  = [GetCommit token (owner (context w)) (repo (context w)) branch].
Proof.
  intros E H.
  rewrite (getCommitFields_run w token branch); [reflexivity|].
  unfold Block.commitRef, Block.isPullRequest.
  rewrite E, H, (replace_leading _ _ _ (prefix_append _ _)). reflexivity.
Qed.

Lemma leading_branch_prefix_removed_once_witness :
  calls (Block.getCommitFields
           (Scenario.pr_world "refs/heads/refs/heads/x") "ghp_token")
  = [GetCommit "ghp_token" "weseek" "slatify" "refs/heads/x"].
Proof.
  apply (leading_branch_prefix_removed_once
           (Scenario.pr_world "refs/heads/refs/heads/x") "ghp_token"
           "refs/heads/x"); reflexivity.
Defined.

(** X8.  On a pull request whose head ref does not contain [refs/heads/]
    anywhere, the lookup asks for the head ref as it is. *)
Theorem plain_head_ref_looked_up (w : World) (token head_ref : string) :
  eventName (context w) = "pull_request" ->
  GITHUB_HEAD_REF w = Some head_ref ->
  occurs "refs/heads/" head_ref = false ->
  calls (Block.getCommitFields w token)
  = [GetCommit token (owner (context w)) (repo (context w)) head_ref].
Proof.
  intros E H O.
  rewrite (getCommitFields_run w token head_ref); [reflexivity|].
  unfold Block.commitRef, Block.isPullRequest.
  now rewrite E, H, (replace_absent _ _ _ O).
Qed.

Lemma plain_head_ref_looked_up_witness :
  calls (Block.getCommitFields (Scenario.pr_world "feature/login")
           "ghp_token")
  = [GetCommit "ghp_token" "weseek" "slatify" "feature/login"].
Proof.
  apply (plain_head_ref_looked_up (Scenario.pr_world "feature/login")
           "ghp_token" "feature/login"); reflexivity.
Defined.

(** X11.  When the lookup succeeds it returns the commit field, whose text
    is the heading [*commit*], a line feed, and the first line of the
    fetched message linked to the commit URL, followed by the author field,
    the login linked to the profile URL, exactly when the commit has an
    author: one or two fields. *)
Theorem commit_fields_text (w : World) (token : string) tr fields :
  Block.getCommitFields w token = (tr, inr fields) ->
  exists r commit first,
    repos_getCommit w token (owner (context w)) (repo (context w)) r
      = inr commit
    /\ free_of Js.LF first = true
    /\ (message commit = first
        \/ exists rest, message commit = first ++ Js.nl ++ rest)
    /\ fields =
       mkMrkdwn "mrkdwn"
         ("*commit*" ++ Js.nl ++ "<" ++ html_url commit ++ "|" ++ first ++ ">")
       :: match author commit with
          | Some a =>
              [mkMrkdwn "mrkdwn"
                 ("*author*" ++ Js.nl ++ "<" ++ author_html_url a ++ "|"
                    ++ login a ++ ">")]
          | None => []
          end.
Proof.
  intros E. apply getCommitFields_inr in E as (r & commit & _ & G & _ & ->).
  destruct (commitField_first_line commit) as (first & T & F & M).
  exists r, commit, first. repeat split; auto.
  unfold Block.commitFieldsOf.
  destruct (Block.commitField commit) as [ty tx] eqn:C.
  assert (ty = "mrkdwn") as -> by (unfold Block.commitField in C; congruence).
  simpl in T. subst tx. now destruct (author commit).
Qed.

Lemma commit_fields_text_witness :
  exists fields first,
    Block.getCommitFields (Scenario.world Scenario.commit_with_author "ok")
      "ghp_token"
    = ([GetCommit "ghp_token" "weseek" "slatify" "4f2c9a1"], inr fields)
    /\ free_of Js.LF first = true
    /\ fields =
       [ mkMrkdwn "mrkdwn"
           ("*commit*" ++ Js.nl
              ++ "<https://github.com/weseek/slatify/commit/4f2c9a1|"
              ++ first ++ ">");
         mkMrkdwn "mrkdwn"
           ("*author*" ++ Js.nl ++ "<https://github.com/octocat|octocat>") ].
Proof.
  eexists.
  destruct (commit_fields_text
              (Scenario.world Scenario.commit_with_author "ok") "ghp_token"
              _ _ eq_refl) as (r & commit & first & G & F & _ & E).
  exists first. injection G as <-.
  split; [reflexivity|]. split; [exact F | exact E].
Defined.

(** X2.  In Full mode with the commit flag and a non-empty token, an error
    of the API call is the error of [generatePayload], unchanged: the one
    call was made and no payload is returned. *)
Theorem upstream_error_propagates (w : World)
    (jobName status mention mentionCondition : string) (commitFlag : bool)
    (created_tag : string) (token : option string) tok r e :
  In status (map fst (Block.members w)) ->
  commitFlag = true -> token = Some tok -> tok <> "" ->
  Block.commitRef w = ([], inr r) ->
  repos_getCommit w tok (owner (context w)) (repo (context w)) r = inl e ->
  Slack.generatePayload w jobName status mention mentionCondition commitFlag
    false false created_tag token
  = ([GetCommit tok (owner (context w)) (repo (context w)) r], inl e).
Proof.
  intros S C T N R A.
  destruct (Block.get w status) as [nt|] eqn:G.
  - destruct (generatePayload_full_run w jobName status mention
                mentionCondition commitFlag created_tag token nt tok
                G C T N) as [Hc Ho].
    rewrite (getCommitFields_run w tok r R), A in Hc, Ho.
    unfold calls, outcome in *. simpl in Hc, Ho.
    destruct (Slack.generatePayload _ _ _ _ _ _ _ _ _ _) as [tr o].
    simpl in *. now subst.
  - destruct (get_member w status S) as [nt G']. congruence.
Qed.

Lemma upstream_error_propagates_witness :
  Slack.generatePayload Scenario.offline "build" "failure" "" ""
    true false false "" (Some "ghp_token")
  = ([GetCommit "ghp_token" "weseek" "slatify" "4f2c9a1"],
     inl (UpstreamError "Not Found")).
Proof.
  apply (upstream_error_propagates Scenario.offline "build" "failure" "" ""
           true "" (Some "ghp_token") "ghp_token" "4f2c9a1"
           (UpstreamError "Not Found"));
    try reflexivity; [simpl; auto 10 | discriminate].
Defined.

(** X3.  On a pull request in a process without [GITHUB_HEAD_REF], the
    lookup throws a [TypeError] before any network call, and so does
    [generatePayload] in Full mode with the commit flag and a non-empty
    token, for every status. *)
Theorem missing_head_ref_throws (w : World)
    (jobName status mention mentionCondition : string) (created_tag : string)
    (tok : string) :
  eventName (context w) = "pull_request" ->
  GITHUB_HEAD_REF w = None ->
  tok <> "" ->
  Block.getCommitFields w tok = ([], inl TypeError)
  /\ Slack.generatePayload w jobName status mention mentionCondition true
       false false created_tag (Some tok)
     = ([], inl TypeError).
Proof.
  intros E H N.
  assert (R : Block.commitRef w = ([], inl TypeError)).
  { unfold Block.commitRef, Block.isPullRequest. now rewrite E, H. }
  pose proof (getCommitFields_throws w tok R) as F.
  split; [exact F|].
  destruct (Block.get w status) as [nt|] eqn:G;
    [|now apply generatePayload_undefined].
  destruct (generatePayload_full_run w jobName status mention
              mentionCondition true created_tag (Some tok) nt tok
              G eq_refl eq_refl N) as [Hc Ho].
  rewrite F in Hc, Ho. unfold calls, outcome in *. simpl in Hc, Ho.
  destruct (Slack.generatePayload _ _ _ _ _ _ _ _ _ _) as [tr o].
  simpl in *. now subst.
Qed.

Lemma missing_head_ref_throws_witness :
  Slack.generatePayload Scenario.pr_world_without_head_ref
    "build" "success" "" "" true false false "" (Some "ghp_token")
  = ([], inl TypeError).
Proof.
  apply (missing_head_ref_throws Scenario.pr_world_without_head_ref
           "build" "success" "" "" "" "ghp_token");
    [reflexivity | reflexivity | discriminate].
Defined.


(** ** Further properties of [generatePayload] and [notify] *)

Lemma get_accessory_status (w : World) (status : string) (a : Accessory) :
  Block.get w status = Some (Block.MAccessory a) -> In status statuses.
Proof.
  unfold Block.get, Block.members, statuses. simpl.
  repeat match goal with
         | |- context [if status =? ?k then _ else _] =>
             destruct (String.eqb_spec status k) as [->|_];
             [intros E; try discriminate E; simpl; auto|]
         end.
  discriminate.
Qed.

(** X1.  [generatePayload] never calls the webhook, and it calls the API
    only in Full mode with the commit flag and a non-empty token: its
    network calls are none, or the one [repos.getCommit] call with that
    token for the repository of the event context. *)
Theorem generatePayload_network_calls (w : World)
    (jobName status mention mentionCondition : string)
    (commitFlag isCompactMode isReleaseMode : bool) (created_tag : string)
    (token : option string) :
  calls (Slack.generatePayload w jobName status mention mentionCondition
           commitFlag isCompactMode isReleaseMode created_tag token) = []
  \/ (isCompactMode = false /\ isReleaseMode = false /\ commitFlag = true
      /\ exists tok r,
          token = Some tok /\ tok <> ""
          /\ Block.commitRef w = ([], inr r)
          /\ calls (Slack.generatePayload w jobName status mention
                      mentionCondition commitFlag isCompactMode isReleaseMode
                      created_tag token)
             = [GetCommit tok (owner (context w)) (repo (context w)) r]).
Proof.
  destruct (Block.get w status) as [nt|] eqn:G;
    [|left; now rewrite generatePayload_undefined].
  destruct isCompactMode;
    [left; now rewrite (generatePayload_compact _ _ _ _ _ _ _ _ _ nt G)|].
  destruct isReleaseMode;
    [left; now rewrite (generatePayload_release _ _ _ _ _ _ _ _ nt G)|].
  destruct (commitFlag && Js.truthy token) eqn:T;
    [|left; now rewrite (generatePayload_full_plain _ _ _ _ _ _ _ _ nt G T)].
  apply andb_true_iff in T as [C T].
  destruct token as [tok|]; [|discriminate]. simpl in T.
  apply negb_true_iff, String.eqb_neq in T.
  destruct (generatePayload_full_run w jobName status mention
              mentionCondition commitFlag created_tag (Some tok) nt tok
              G C eq_refl T) as [Hc _].
  destruct (commitRef_cases w) as [(R & _) | (r & R)].
  - left. now rewrite Hc, (getCommitFields_throws w tok R).
  - right. repeat split; auto. exists tok, r. repeat split; auto.
    now rewrite Hc, (getCommitFields_run w tok r R).
Qed.

(** X12.  [generatePayload] returns a payload if and only if the status
    names a property of the [Block] object and either the mode is compact
    or release, or no enrichment is asked for, or the commit lookup finds
    its ref and the API answers with a commit. *)
Theorem generatePayload_returns_iff (w : World)
    (jobName status mention mentionCondition : string)
    (commitFlag isCompactMode isReleaseMode : bool) (created_tag : string)
    (token : option string) :
  (exists p,
      outcome (Slack.generatePayload w jobName status mention
                 mentionCondition commitFlag isCompactMode isReleaseMode
                 created_tag token) = inr p)
  <-> In status (map fst (Block.members w))
      /\ (isCompactMode = true
          \/ isReleaseMode = true
          \/ commitFlag && Js.truthy token = false
          \/ exists tok r commit,
              token = Some tok
              /\ Block.commitRef w = ([], inr r)
              /\ repos_getCommit w tok (owner (context w))
                   (repo (context w)) r = inr commit).
Proof.
  split.
  - intros [p E].
    destruct (Slack.generatePayload _ _ _ _ _ _ _ _ _ _) as [tr o] eqn:Gen.
    unfold outcome in E. simpl in E. subst o.
    destruct (generatePayload_inr _ _ _ _ _ _ _ _ _ _ _ _ Gen)
      as (nt & _ & G & _).
    split; [exact (lookup_Some _ _ _ G)|].
    destruct isCompactMode; [now left|].
    destruct isReleaseMode; [now right; left|].
    apply generatePayload_full_inr in Gen
      as [(T & _) | (_ & tok & r & commit & Tk & R & A & _)].
    + now right; right; left.
    + right; right; right. now exists tok, r, commit.
  - intros [S M]. destruct (get_member w status S) as [nt G].
    destruct isCompactMode;
      [rewrite (generatePayload_compact _ _ _ _ _ _ _ _ _ nt G);
       eexists; reflexivity|].
    destruct isReleaseMode;
      [rewrite (generatePayload_release _ _ _ _ _ _ _ _ nt G);
       eexists; reflexivity|].
    destruct (commitFlag && Js.truthy token) eqn:T;
      [|rewrite (generatePayload_full_plain _ _ _ _ _ _ _ _ nt G T);
        eexists; reflexivity].
    destruct M as [M | [M | [M | (tok & r & commit & Tk & R & A)]]];
      try discriminate.
    apply andb_true_iff in T as [C T]. subst token. simpl in T.
    apply negb_true_iff, String.eqb_neq in T.
    rewrite (generatePayload_full_enriched w jobName status mention
               mentionCondition commitFlag created_tag (Some tok) nt tok r
               commit G C eq_refl T R A).
    eexists; reflexivity.
Qed.

(** X4.  An error thrown by the webhook client is the error of [notify],
    unchanged, after the one webhook call. *)
Theorem notify_transport_error_propagates (w : World) (url : string)
    (options : IncomingWebhookDefaultArguments) (payload : Payload) e :
  webhook_send w url options payload = inl e ->
  Slack.notify w url options payload
  = ([WebhookSend url options payload], inl e).
Proof.
  intros E. unfold Slack.notify, request, bind. now rewrite E.
Qed.

Lemma notify_transport_error_propagates_witness :
  Slack.notify Scenario.offline "https://hooks.slack.com/services/T0/B0/x"
    Scenario.no_defaults (mkPayload "build Failed" [] true)
  = ([WebhookSend "https://hooks.slack.com/services/T0/B0/x"
        Scenario.no_defaults (mkPayload "build Failed" [] true)],
     inl (UpstreamError "ECONNREFUSED")).
Proof.
  apply (notify_transport_error_propagates Scenario.offline
           "https://hooks.slack.com/services/T0/B0/x" Scenario.no_defaults
           (mkPayload "build Failed" [] true) (UpstreamError "ECONNREFUSED")).
  reflexivity.
Defined.

(** X5.  Every payload [generatePayload] returns has [unfurl_links] on and
    exactly one attachment with exactly one block of type [section]; the
    block has a [text] and no [fields] in compact and release mode, and
    [fields] and no [text] in Full mode; every element is of type
    [mrkdwn]. *)
Theorem payload_shape (w : World)
    (jobName status mention mentionCondition : string)
    (commitFlag isCompactMode isReleaseMode : bool) (created_tag : string)
    (token : option string) tr p :
  Slack.generatePayload w jobName status mention mentionCondition commitFlag
    isCompactMode isReleaseMode created_tag token = (tr, inr p) ->
  unfurl_links p = true
  /\ exists colour body,
      attachments p = [mkAttachment colour [body]]
      /\ block_type body = "section"
      /\ if isCompactMode || isReleaseMode
         then block_fields body = None
              /\ exists t, block_text body = Some (mkMrkdwn "mrkdwn" t)
         else block_text body = None
              /\ exists fields,
                  block_fields body = Some fields
                  /\ Forall (fun f => type f = "mrkdwn") fields.
Proof.
  intros E.
  destruct (Block.get w status) as [nt|] eqn:G;
    [|rewrite generatePayload_undefined in E by exact G; discriminate].
  destruct isCompactMode.
  { rewrite (generatePayload_compact _ _ _ _ _ _ _ _ _ nt G) in E.
    inversion E; subst. split; [reflexivity|].
    eexists. eexists. split; [reflexivity|]. split; [reflexivity|].
    split; [reflexivity | eexists; reflexivity]. }
  destruct isReleaseMode.
  { rewrite (generatePayload_release _ _ _ _ _ _ _ _ nt G) in E.
    inversion E; subst. split; [reflexivity|].
    eexists. eexists. split; [reflexivity|]. split; [reflexivity|].
    split; [reflexivity | eexists; reflexivity]. }
  destruct (generatePayload_inr _ _ _ _ _ _ _ _ _ _ _ _ E)
    as (nt' & body & _ & ->).
  split; [reflexivity|]. exists (Block.get_color nt'), body.
  split; [reflexivity|].
  assert (M : forall commit,
             Forall (fun f => type f = "mrkdwn")
                    (Block.commitFieldsOf commit)).
  { intros commit. unfold Block.commitFieldsOf.
    destruct (author commit); repeat constructor. }
  apply generatePayload_full_inr in E
    as [(_ & _ & B) | (_ & tok & r & commit & _ & _ & _ & _ & B)];
    unfold payload_blocks in B; simpl in B; injection B as ->;
    (split; [reflexivity|]); (split; [reflexivity|]);
    eexists; (split; [reflexivity|]).
  - repeat constructor.
  - repeat (apply Forall_cons; [reflexivity|]). apply M.
Qed.

Lemma payload_shape_witness :
  exists p fields,
    Slack.generatePayload (Scenario.world Scenario.commit_with_author "ok")
      "build" "success" "" "" true false false "" (Some "ghp_token")
    = ([GetCommit "ghp_token" "weseek" "slatify" "4f2c9a1"], inr p)
    /\ unfurl_links p = true
    /\ map blocks (attachments p) = [[mkBlock "section" None (Some fields)]]
    /\ Forall (fun f => type f = "mrkdwn") fields.
Proof.
  eexists.
  destruct (payload_shape (Scenario.world Scenario.commit_with_author "ok")
              "build" "success" "" "" true false false "" (Some "ghp_token")
              _ _ eq_refl)
    as (U & colour & body & A & _ & T & fields & F & M).
  exists fields. split; [reflexivity|]. split; [exact U|].
  rewrite A. injection A as _ <-. simpl in F. injection F as <-.
  split; [reflexivity | exact M].
Defined.

(** X6.  A status outside success, failure and cancelled for which
    [generatePayload] still returns a payload names another member of the
    [Block] object: the result label reads [undefined] in the summary text
    and the attachment has no colour. *)
Theorem other_member_status_undefined_label (w : World)
    (jobName status mention mentionCondition : string)
    (commitFlag isCompactMode isReleaseMode : bool) (created_tag : string)
    (token : option string) tr p :
  ~ In status statuses ->
  Slack.generatePayload w jobName status mention mentionCondition commitFlag
    isCompactMode isReleaseMode created_tag token = (tr, inr p) ->
  In status (map fst (Block.members w))
  /\ payload_colors p = [None]
  /\ payload_text p
     = if negb (mention =? "") && Slack.isMention mentionCondition status
       then "<!" ++ mention ++ "> " ++ jobName ++ " undefined"
       else jobName ++ " undefined".
Proof.
  intros N E.
  apply generatePayload_inr in E as (nt & body & G & ->).
  split; [exact (lookup_Some _ _ _ G)|].
  destruct nt as [a| | | | |];
    try (split; reflexivity).
  exfalso. apply N. exact (get_accessory_status w status a G).
Qed.

Lemma other_member_status_undefined_label_witness :
  exists p,
    Slack.generatePayload (Scenario.world Scenario.commit_with_author "ok")
      "build" "isPullRequest" "here" "always" false true false "" None
    = ([], inr p)
    /\ payload_colors p = [None]
    /\ payload_text p = "<!here> build undefined".
Proof.
  eexists. split; [reflexivity|].
  apply (other_member_status_undefined_label
           (Scenario.world Scenario.commit_with_author "ok")
           "build" "isPullRequest" "here" "always" false true false "" None
           [] _); [|reflexivity].
  unfold statuses. simpl. intros [H | [H | [H | []]]]; discriminate.
Defined.

(** X7.  The compact payload does not depend on the kind of event: two
    worlds that agree on commit, workflow, ref, actor and repository give
    the same payload, whatever their event name, pull request number, head
    ref, commit flag, token, release flag and tag; in particular the
    workflow link stays the commit's checks page on a pull request. *)
Theorem compact_ignores_event_kind (w1 w2 : World)
    (jobName status mention mentionCondition : string)
    (commitFlag1 commitFlag2 isReleaseMode1 isReleaseMode2 : bool)
    (created_tag1 created_tag2 : string) (token1 token2 : option string) :
  In status statuses ->
  sha (context w1) = sha (context w2) ->
  workflow (context w1) = workflow (context w2) ->
  ref (context w1) = ref (context w2) ->
  actor (context w1) = actor (context w2) ->
  owner (context w1) = owner (context w2) ->
  repo (context w1) = repo (context w2) ->
  Slack.generatePayload w1 jobName status mention mentionCondition
    commitFlag1 true isReleaseMode1 created_tag1 token1
  = Slack.generatePayload w2 jobName status mention mentionCondition
      commitFlag2 true isReleaseMode2 created_tag2 token2.
Proof.
  intros S Hs Hw Hr Ha Ho Hp.
  destruct (get_status w1 status S) as (a1 & G1 & _).
  destruct (get_status w2 status S) as (a2 & G2 & _).
  assert (a1 = a2) as <-.
  { unfold statuses in S. simpl in S.
    destruct S as [<- | [<- | [<- | []]]];
      compute in G1, G2; congruence. }
  rewrite (generatePayload_compact _ _ _ _ _ _ _ _ _ _ G1),
          (generatePayload_compact _ _ _ _ _ _ _ _ _ _ G2).
  unfold Block.repoUrl. now rewrite Hs, Hw, Hr, Ha, Ho, Hp.
Qed.

Lemma compact_ignores_event_kind_witness :
  Slack.generatePayload (Scenario.world Scenario.commit_with_author "ok")
    "build" "failure" "" "" false true false "" None
  = Slack.generatePayload Scenario.push_as_pull_request
      "build" "failure" "" "" true true true "v1.2.3" (Some "ghp_token").
Proof.
  apply (compact_ignores_event_kind
           (Scenario.world Scenario.commit_with_author "ok")
           Scenario.push_as_pull_request "build" "failure" "" ""
           false true false true "" "v1.2.3" None (Some "ghp_token"));
    [simpl; auto | reflexivity ..].
Defined.

Lemma generatePayload_returns_iff_witness :
  exists p,
    outcome (Slack.generatePayload
               (Scenario.world Scenario.commit_without_author "ok")
               "build" "success" "" "" true false false ""
               (Some "ghp_token"))
    = inr p.
Proof.
  apply (proj2 (generatePayload_returns_iff
                  (Scenario.world Scenario.commit_without_author "ok")
                  "build" "success" "" "" true false false ""
                  (Some "ghp_token"))).
  split; [simpl; auto 10|].
  right; right; right.
  exists "ghp_token", "4f2c9a1", Scenario.commit_without_author.
  repeat split.
Defined.
